(** * SendRawEthernetFrame.py: the frame it builds and the calls it makes

    The script is a straight line of Python 2 statements: it creates a raw
    packet socket, binds it to an interface, concatenates five byte strings
    and hands the result to one [send].  Byte strings are lists of bytes,
    the socket module is a signature of calls answered by a host, and the
    script is a program over that signature. *)

From Stdlib Require Import String.
From Stdlib Require Import List ZArith Lia Bool.
From Stdlib.Strings Require Import Byte.
Import ListNotations.

Local Open Scope list_scope.

(** ** Python 2 [str] values *)

Definition bytes : Type := list byte.

(** [a + b] on two [str] operands: a new string, [a] followed by [b]. *)
Definition str_add (a b : bytes) : bytes := a ++ b.

(** [s * n]: [n] copies of [s]; no copies when [n] is zero or negative. *)
Definition str_mul (s : bytes) (n : Z) : bytes :=
  concat (repeat s (Z.to_nat n)).

(** [s[i:j]] for [0 <= i <= j]: the slice clips at the end of [s]. *)
Definition slice (s : bytes) (i j : nat) : bytes :=
  firstn (j - i) (skipn i s).

(** Python's [+] associates to the left. *)
Infix "+++" := str_add (at level 50, left associativity).

(** ** The frame (line 80)

    The argument of [s.send]:
    [dst_mac_addr + src_mac_addr + ethertype + payload + crc32],
    as a function of the five module variables it reads. *)
Definition build (dst_mac_addr src_mac_addr ethertype payload crc32 : bytes)
  : bytes :=
  dst_mac_addr +++ src_mac_addr +++ ethertype +++ payload +++ crc32.

(** Lines 76-78: the trailer variable always exists; the empty string stands
    for "no trailer", a value like ["\x01\x02\x03\x04"] for a trailer. *)
Definition crc32_of (trailer : option bytes) : bytes :=
  match trailer with
  | Some t => t
  | None => []
  end.

(** Reading the trailer back from the tail of a frame, by the same
    convention. *)
Definition trailer_of (tail : bytes) : option bytes :=
  match tail with
  | [] => None
  | _ :: _ => Some tail
  end.

(** The frame cut at the offsets of its layout: bytes 0..5, 6..11, 12..13,
    14..14+n-1 and the rest. *)
Definition split_frame (frame : bytes) (n : nat)
  : bytes * bytes * bytes * bytes * bytes :=
  (slice frame 0 6, slice frame 6 12, slice frame 12 14,
   slice frame 14 (14 + n), skipn (14 + n) frame).

(** ** The literals of the script (lines 59, 69-78) *)

Definition interface_name : string := "eth0"%string.

Definition src_mac_addr : bytes := [x01; x02; x03; x04; x05; x06].
Definition dst_mac_addr : bytes := [x01; x02; x03; x04; x05; x06].
Definition ethertype : bytes := [x08; x01].
Definition payload : bytes := str_mul [x50] 100.
Definition crc32 : bytes := [].

(** The value the comment on line 70 gives for broadcasting. *)
Definition broadcast : bytes := [xff; xff; xff; xff; xff; xff].

(** ** The socket module as the script sees it *)

(** [socket.error]: the one exception the calls of the script raise, with
    its errno. *)
Inductive exn : Type :=
| socket_error (errno : Z).

Definition EPERM : Z := 1.
Definition EBADF : Z := 9.
Definition ENODEV : Z := 19.

(** A Python call returns a value or raises. *)
Inductive outcome (A : Type) : Type :=
| Returns (a : A)
| Raises (e : exn).

Arguments Returns {A} a.
Arguments Raises {A} e.

(** A socket object, named by the host that created it. *)
Definition sock : Type := nat.

Definition AF_PACKET : Z := 17.
Definition SOCK_RAW : Z := 3.
Definition SOL_SOCKET : Z := 1.
Definition SO_NOFCS : Z := 43.

(** The calls of the socket module, indexed by what they return:
    [socket(family, type)], [s.bind(address)], [s.setsockopt(level, optname,
    value)], [s.send(data)] and [s.close()]. *)
Inductive socketE : Type -> Type :=
| Esocket (family type : Z) : socketE sock
| Ebind (s : sock) (address : string * Z) : socketE unit
| Esetsockopt (s : sock) (level optname value : Z) : socketE unit
| Esend (s : sock) (data : bytes) : socketE Z
| Eclose (s : sock) : socketE unit.

(** A program over the socket module: it returns, or makes a call and goes on
    with the value the call returned. *)
Inductive prog (R : Type) : Type :=
| Ret (r : R)
| Vis (X : Type) (e : socketE X) (k : X -> prog R).

Arguments Ret {R} r.
Arguments Vis {R X} e k.

Fixpoint pbind {A B : Type} (p : prog A) (f : A -> prog B) : prog B :=
  match p with
  | Ret a => f a
  | Vis e k => Vis e (fun x => pbind (k x) f)
  end.

Notation "x <- c ;; k" := (pbind c (fun x => k))
  (at level 61, c at next level, right associativity).

Definition call {X : Type} (e : socketE X) : prog X := Vis e Ret.

(** ** Runs

    The host answers every call and keeps its own state [W].  A run records
    each call with its answer; an exception nobody catches ends the run. *)
Record host (W : Type) : Type := Host {
  respond : forall X : Type, socketE X -> W -> outcome X * W
}.

Arguments respond {W} h {X} e w.

Inductive event : Type :=
| Event (X : Type) (e : socketE X) (r : outcome X).

Arguments Event {X} e r.

Record result (W R : Type) : Type := Result {
  trace : list event;
  out : outcome R;
  final : W
}.

Arguments Result {W R} trace out final.
Arguments trace {W R} r.
Arguments out {W R} r.
Arguments final {W R} r.

Fixpoint run {W R : Type} (h : host W) (p : prog R) (w : W) : result W R :=
  match p with
  | Ret r => Result [] (Returns r) w
  | Vis e k =>
      match respond h e w with
      | (Returns x, w') =>
          let r := run h (k x) w' in
          Result (Event e (Returns x) :: trace r) (out r) (final r)
      | (Raises err, w') => Result [Event e (Raises err)] (Raises err) w'
      end
  end.

(** ** The script (lines 59-80) *)

(** Evaluating the frame expression is a step of the script that makes no
    call: every [+] returns a new string whatever the lengths of its
    operands. *)
Definition eval_frame (dst src ety pl crc : bytes) : prog bytes :=
  Ret (build dst src ety pl crc).

(** Lines 61-66 with the interface name as a parameter: create the socket,
    bind it. The [setsockopt] of line 64 is a comment. *)
Definition open_transmitter (name : string) : prog sock :=
  s <- call (Esocket AF_PACKET SOCK_RAW) ;;
  _ <- call (Ebind s (name, 0%Z)) ;;
  Ret s.

(** The whole script with its literals as parameters. *)
Definition script_with (name : string) (dst src ety pl crc : bytes)
  : prog unit :=
  s <- open_transmitter name ;;
  frame <- eval_frame dst src ety pl crc ;;
  _ <- call (Esend s frame) ;;
  Ret tt.

Definition script : prog unit :=
  script_with interface_name dst_mac_addr src_mac_addr ethertype payload crc32.

(** ** Reading a run *)

Definition is_socket (ev : event) : bool :=
  match ev with
  | Event e _ => match e with Esocket _ _ => true | _ => false end
  end.

Definition is_bind (ev : event) : bool :=
  match ev with
  | Event e _ => match e with Ebind _ _ => true | _ => false end
  end.

Definition is_setsockopt (ev : event) : bool :=
  match ev with
  | Event e _ => match e with Esetsockopt _ _ _ _ => true | _ => false end
  end.

Definition is_send (ev : event) : bool :=
  match ev with
  | Event e _ => match e with Esend _ _ => true | _ => false end
  end.

Definition is_close (ev : event) : bool :=
  match ev with
  | Event e _ => match e with Eclose _ => true | _ => false end
  end.








(** The names the specification gives to two answers of the host: Errno 1,
    "Operation not permitted" (the header comment of the script), and
    Errno 19, "No such device". *)
Definition PermissionDenied : exn := socket_error EPERM.
Definition InterfaceNotFound : exn := socket_error ENODEV.

(** ** A host to run the script on

    A small Linux-like host for concrete runs: creating a raw socket needs
    privilege, binding needs an interface of that name, sending needs a bound
    socket and puts the bytes on the wire of its interface in one piece. *)
Definition ENXIO : Z := 6.

Record world : Type := World {
  privileged : bool;
  interfaces : list string;
  sockets : list (sock * option string);
  wire : list (string * bytes)
}.

Definition lookup_sock (s : sock) (w : world) : option (option string) :=
  option_map snd (find (fun p => Nat.eqb (fst p) s) (sockets w)).

Definition drop_sock (s : sock) (w : world) : list (sock * option string) :=
  filter (fun p => negb (Nat.eqb (fst p) s)) (sockets w).

Definition model_respond (X : Type) (e : socketE X) (w : world)
  : outcome X * world :=
  match e in socketE X return outcome X * world with
  | Esocket _ _ =>
      if privileged w
      then
        let s := List.length (sockets w) in
        (Returns s,
         World (privileged w) (interfaces w) ((s, None) :: sockets w) (wire w))
      else (Raises (socket_error EPERM), w)
  | Ebind s (name, _) =>
      match lookup_sock s w with
      | None => (Raises (socket_error EBADF), w)
      | Some _ =>
          if existsb (String.eqb name) (interfaces w)
          then
            (Returns tt,
             World (privileged w) (interfaces w)
               ((s, Some name) :: drop_sock s w) (wire w))
          else (Raises (socket_error ENODEV), w)
      end
  | Esetsockopt s _ _ _ =>
      match lookup_sock s w with
      | None => (Raises (socket_error EBADF), w)
      | Some _ => (Returns tt, w)
      end
  | Esend s data =>
      match lookup_sock s w with
      | None => (Raises (socket_error EBADF), w)
      | Some None => (Raises (socket_error ENXIO), w)
      | Some (Some name) =>
          (Returns (Z.of_nat (List.length data)),
           World (privileged w) (interfaces w) (sockets w)
             (wire w ++ [(name, data)]))
      end
  | Eclose s =>
      (Returns tt,
       World (privileged w) (interfaces w) (drop_sock s w) (wire w))
  end.

Definition model_host : host world := Host world model_respond.

(** A host with [eth0] and [lo], seen by root and by an ordinary user. *)
Definition root_world : world :=
  World true ["eth0"%string; "lo"%string] [] [].

Definition user_world : world :=
  World false ["eth0"%string; "lo"%string] [] [].

(** ** The shape of a run of the script

    The four ways a run of [script_with name ...] goes: the socket is refused;
    the bind is refused; the send is refused; nothing is refused.  [frame] is
    the value handed to [send]. *)
Definition script_run_shape {W : Type} (name : string) (frame : bytes)
  (r : result W unit) : Prop :=
  (exists e,
      trace r = [Event (Esocket AF_PACKET SOCK_RAW) (Raises e)]
      /\ out r = Raises e)
  \/ (exists s e,
      trace r = [Event (Esocket AF_PACKET SOCK_RAW) (Returns s);
                 Event (Ebind s (name, 0%Z)) (Raises e)]
      /\ out r = Raises e)
  \/ (exists s e,
      trace r = [Event (Esocket AF_PACKET SOCK_RAW) (Returns s);
                 Event (Ebind s (name, 0%Z)) (Returns tt);
                 Event (Esend s frame) (Raises e)]
      /\ out r = Raises e)
  \/ (exists s n,
      trace r = [Event (Esocket AF_PACKET SOCK_RAW) (Returns s);
                 Event (Ebind s (name, 0%Z)) (Returns tt);
                 Event (Esend s frame) (Returns n)]
      /\ out r = Returns tt).

(** ** A host with a transmit limit

    The host above, with the limit Linux puts on a packet socket: a frame
    longer than the 14-byte header plus the MTU of the interface is refused
    with Errno 90, "Message too long", and nothing is put on the wire. *)
Definition EMSGSIZE : Z := 90.

Definition mtu_respond (mtu : nat) (X : Type) (e : socketE X) (w : world)
  : outcome X * world :=
  match e in socketE X return outcome X * world -> outcome X * world with
  | Esend _ data =>
      fun answer =>
        if Nat.ltb (14 + mtu) (List.length data)
        then (Raises (socket_error EMSGSIZE), w)
        else answer
  | _ => fun answer => answer
  end (model_respond X e w).

Definition mtu_host (mtu : nat) : host world := Host world (mtu_respond mtu).

(** * Properties *)

(** ** Byte strings *)

Lemma firstn_exact (a b : bytes) (n : nat) :
  List.length a = n -> firstn n (a ++ b) = a.
Proof.
  intros <-. rewrite firstn_app, firstn_all, Nat.sub_diag.
  cbn. apply app_nil_r.
Qed.

Lemma skipn_exact (a b : bytes) (n : nat) :
  List.length a = n -> skipn n (a ++ b) = b.
Proof.
  intros <-. rewrite skipn_app, skipn_all, Nat.sub_diag. reflexivity.
Qed.

Lemma slice_app (a b c : bytes) (i j : nat) :
  List.length a = i -> List.length b = j - i -> slice (a ++ b ++ c) i j = b.
Proof.
  intros Ha Hb. unfold slice.
  rewrite (skipn_exact a (b ++ c) i Ha).
  apply firstn_exact, Hb.
Qed.


(** ** The frame *)

(** The left-nested sum of line 80 is the five strings in a row. *)
Lemma build_app (dst src ety pl crc : bytes) :
  build dst src ety pl crc = dst ++ src ++ ety ++ pl ++ crc.
Proof.
  unfold build, str_add. repeat rewrite <- app_assoc. reflexivity.
Qed.

Lemma build_length (dst src ety pl crc : bytes) :
  List.length (build dst src ety pl crc)
  = List.length dst + List.length src + List.length ety
    + List.length pl + List.length crc.
Proof.
  rewrite build_app. repeat rewrite length_app. lia.
Qed.

Lemma crc32_of_length (trailer : option bytes) :
  (forall t, trailer = Some t -> List.length t = 4) ->
  List.length (crc32_of trailer)
  = match trailer with Some _ => 4 | None => 0 end.
Proof.
  destruct trailer as [t|]; cbn; intros H.
  - apply H. reflexivity.
  - reflexivity.
Qed.

Lemma split_frame_app (dst src ety pl crc : bytes) :
  List.length dst = 6 -> List.length src = 6 -> List.length ety = 2 ->
  split_frame (dst ++ src ++ ety ++ pl ++ crc) (List.length pl)
  = (dst, src, ety, pl, crc).
Proof.
  intros Hd Hs He. unfold split_frame.
  assert (H0 : slice (dst ++ src ++ ety ++ pl ++ crc) 0 6 = dst).
  { apply (slice_app [] dst); [reflexivity | exact Hd]. }
  assert (H1 : slice (dst ++ src ++ ety ++ pl ++ crc) 6 12 = src).
  { apply slice_app; [exact Hd | exact Hs]. }
  assert (H2 : slice (dst ++ src ++ ety ++ pl ++ crc) 12 14 = ety).
  { replace (dst ++ src ++ ety ++ pl ++ crc)
      with ((dst ++ src) ++ ety ++ pl ++ crc)
      by (repeat rewrite <- app_assoc; reflexivity).
    apply slice_app; [rewrite length_app; lia | exact He]. }
  assert (H3 : slice (dst ++ src ++ ety ++ pl ++ crc) 14 (14 + List.length pl)
               = pl).
  { replace (dst ++ src ++ ety ++ pl ++ crc)
      with ((dst ++ src ++ ety) ++ pl ++ crc)
      by (repeat rewrite <- app_assoc; reflexivity).
    apply slice_app; [repeat rewrite length_app; lia | lia]. }
  assert (H4 : skipn (14 + List.length pl) (dst ++ src ++ ety ++ pl ++ crc)
               = crc).
  { replace (dst ++ src ++ ety ++ pl ++ crc)
      with ((dst ++ src ++ ety ++ pl) ++ crc)
      by (repeat rewrite <- app_assoc; reflexivity).
    apply skipn_exact. repeat rewrite length_app. lia. }
  rewrite H0, H1, H2, H3, H4. reflexivity.
Qed.

Lemma trailer_of_crc32_of (trailer : option bytes) :
  (forall t, trailer = Some t -> List.length t = 4) ->
  trailer_of (crc32_of trailer) = trailer.
Proof.
  destruct trailer as [[|b t]|]; cbn; intros H.
  - specialize (H [] eq_refl). discriminate H.
  - reflexivity.
  - reflexivity.
Qed.

(** ** Runs *)

Section Runs.

Context {W : Type} (h : host W).

Lemma run_pbind {A B : Type} (p : prog A) (f : A -> prog B) (w : W) :
  run h (pbind p f) w
  = match out (run h p w) with
    | Returns a =>
        let r := run h (f a) (final (run h p w)) in
        Result (trace (run h p w) ++ trace r) (out r) (final r)
    | Raises e => Result (trace (run h p w)) (Raises e) (final (run h p w))
    end.
Proof.
  revert w. induction p as [a | X e k IH]; intros w; cbn.
  - destruct (run h (f a) w); reflexivity.
  - destruct (respond h e w) as [[x | err] w']; cbn.
    + rewrite IH. destruct (out (run h (k x) w')); reflexivity.
    + reflexivity.
Qed.

Lemma run_eval_frame (w : W) (dst src ety pl crc : bytes) :
  run h (eval_frame dst src ety pl crc) w
  = Result [] (Returns (build dst src ety pl crc)) w.
Proof. reflexivity. Qed.

(** A refused socket ends [open_transmitter] before the name is used. *)
Lemma open_socket_refused (w w1 : W) (name : string) (e : exn) :
  respond h (Esocket AF_PACKET SOCK_RAW) w = (Raises e, w1) ->
  run h (open_transmitter name) w
  = Result [Event (Esocket AF_PACKET SOCK_RAW) (Raises e)] (Raises e) w1.
Proof.
  intros H. unfold open_transmitter, call. cbn. rewrite H. reflexivity.
Qed.

(** The script is [open_transmitter] followed by one [send]. *)
Lemma run_script_with_open (w : W) (name : string)
  (dst src ety pl crc : bytes) :
  run h (script_with name dst src ety pl crc) w
  = match out (run h (open_transmitter name) w) with
    | Returns s =>
        let r :=
          run h (_ <- call (Esend s (build dst src ety pl crc)) ;; Ret tt)
            (final (run h (open_transmitter name) w)) in
        Result (trace (run h (open_transmitter name) w) ++ trace r)
          (out r) (final r)
    | Raises e =>
        Result (trace (run h (open_transmitter name) w)) (Raises e)
          (final (run h (open_transmitter name) w))
    end.
Proof.
  unfold script_with. rewrite run_pbind. reflexivity.
Qed.

Lemma run_script_with_shape (w : W) (name : string)
  (dst src ety pl crc : bytes) :
  script_run_shape name (build dst src ety pl crc)
    (run h (script_with name dst src ety pl crc) w).
Proof.
  unfold script_run_shape, script_with, open_transmitter, eval_frame, call.
  cbn.
  destruct (respond h (Esocket AF_PACKET SOCK_RAW) w) as [[s | e] w1]; cbn.
  - destruct (respond h (Ebind s (name, 0%Z)) w1) as [[[] | e] w2]; cbn.
    + destruct (respond h (Esend s (build dst src ety pl crc)) w2)
        as [[n | e] w3]; cbn.
      * right; right; right. exists s, n. split; reflexivity.
      * right; right; left. exists s, e. split; reflexivity.
    + right; left. exists s, e. split; reflexivity.
  - left. exists e. split; reflexivity.
Qed.

Lemma run_script_shape (w : W) :
  script_run_shape interface_name
    (build dst_mac_addr src_mac_addr ethertype payload crc32)
    (run h script w).
Proof. apply run_script_with_shape. Qed.

End Runs.

(** Splits a goal about a run along the four shapes of [script_run_shape],
    rewriting the trace and the outcome of the run in each. *)
Ltac by_shape H :=
  let e := fresh "e" in
  let s := fresh "s" in
  let n := fresh "n" in
  let Ht := fresh "Ht" in
  let Ho := fresh "Ho" in
  destruct H as [(e & Ht & Ho) | [(s & e & Ht & Ho)
    | [(s & e & Ht & Ho) | (s & n & Ht & Ho)]]];
  rewrite ?Ht, ?Ho; cbn.

(** ** The frame builder *)

(** C1: for dst and src of 6 bytes, ethertype of 2 bytes, a payload of at
    most 1500 bytes and a trailer that, when present, has 4 bytes, the frame
    is 14 + len(payload) bytes long, 4 more with a trailer, and is the fields
    in the order dst, src, ethertype, payload, trailer. *)
Theorem build_valid_frame (dst src ety pl : bytes) (trailer : option bytes) :
  List.length dst = 6 -> List.length src = 6 -> List.length ety = 2 ->
  List.length pl <= 1500 ->
  (forall t, trailer = Some t -> List.length t = 4) ->
  List.length (build dst src ety pl (crc32_of trailer))
  = 14 + List.length pl + match trailer with Some _ => 4 | None => 0 end
  /\ build dst src ety pl (crc32_of trailer)
     = dst ++ src ++ ety ++ pl ++ crc32_of trailer.
Proof.
  intros Hd Hs He _ Ht. split.
  - rewrite build_length, Hd, Hs, He, (crc32_of_length trailer Ht). lia.
  - apply build_app.
Qed.

(** The literals of the script with the trailer of line 77. *)
Lemma build_valid_frame_witness :
  List.length dst_mac_addr = 6 /\ List.length payload <= 1500
  /\ List.length
       (build dst_mac_addr src_mac_addr ethertype payload
          (crc32_of (Some [x01; x02; x03; x04])))
     = 14 + List.length payload + 4
  /\ build dst_mac_addr src_mac_addr ethertype payload
       (crc32_of (Some [x01; x02; x03; x04]))
     = dst_mac_addr ++ src_mac_addr ++ ethertype ++ payload
       ++ crc32_of (Some [x01; x02; x03; x04]).
Proof.
  split; [reflexivity |].
  split; [apply Nat.leb_le; reflexivity |].
  apply (build_valid_frame dst_mac_addr src_mac_addr ethertype payload
           (Some [x01; x02; x03; x04])).
  - reflexivity.
  - reflexivity.
  - reflexivity.
  - apply Nat.leb_le. reflexivity.
  - intros t H. injection H as <-. reflexivity.
Defined.

(** C2, as the code has it: no field length is checked.  Whenever dst or src
    is not 6 bytes long, ethertype is not 2 bytes long or a trailer is not 4
    bytes long, building the frame raises nothing and returns the fields as
    given, in a row. *)
Theorem build_accepts_any_field_length {W : Type} (h : host W) (w : W)
  (dst src ety pl : bytes) (trailer : option bytes) :
  List.length dst <> 6 \/ List.length src <> 6 \/ List.length ety <> 2
  \/ (exists t, trailer = Some t /\ List.length t <> 4) ->
  out (run h (eval_frame dst src ety pl (crc32_of trailer)) w)
  = Returns (dst ++ src ++ ety ++ pl ++ crc32_of trailer)
  /\ List.length (build dst src ety pl (crc32_of trailer))
     = List.length dst + List.length src + List.length ety + List.length pl
       + List.length (crc32_of trailer).
Proof.
  intros _. split.
  - rewrite run_eval_frame. cbn. rewrite build_app. reflexivity.
  - apply build_length.
Qed.

(** A 3-byte dst with the other literals of the script. *)
Lemma build_accepts_any_field_length_witness :
  List.length [x01; x02; x03] <> 6
  /\ out (run model_host
            (eval_frame [x01; x02; x03] src_mac_addr ethertype payload
               (crc32_of None)) user_world)
     = Returns ([x01; x02; x03] ++ src_mac_addr ++ ethertype ++ payload
                ++ crc32_of None)
  /\ List.length
       (build [x01; x02; x03] src_mac_addr ethertype payload (crc32_of None))
     = List.length [x01; x02; x03] + List.length src_mac_addr
       + List.length ethertype + List.length payload
       + List.length (crc32_of None).
Proof.
  split; [cbn; lia |].
  apply (build_accepts_any_field_length model_host user_world
           [x01; x02; x03] src_mac_addr ethertype payload None).
  left. cbn. lia.
Defined.

(** C2 as stated fails: with a 3-byte dst the frame is built, 111 bytes
    long, and nothing is raised. *)
Lemma build_short_dst_returns :
  out (run model_host
         (eval_frame [x01; x02; x03] src_mac_addr ethertype payload crc32)
         user_world)
  = Returns ([x01; x02; x03] ++ src_mac_addr ++ ethertype ++ payload)
  /\ List.length
       (build [x01; x02; x03] src_mac_addr ethertype payload crc32) = 111
  /\ (forall e : exn,
        out (run model_host
               (eval_frame [x01; x02; x03] src_mac_addr ethertype payload
                  crc32) user_world)
        <> Raises e).
Proof.
  split; [reflexivity |]. split; [reflexivity |].
  intros e H. discriminate H.
Qed.

(** C3: the frame of the script is 114 bytes long: the 6 bytes of dst
    (01 02 03 04 05 06), the 6 bytes of src (the same), 08 01, then 100 bytes
    0x50; the trailer is empty. *)
Theorem script_frame_scenario :
  dst_mac_addr = [x01; x02; x03; x04; x05; x06]
  /\ src_mac_addr = dst_mac_addr
  /\ crc32_of None = crc32
  /\ List.length (build dst_mac_addr src_mac_addr ethertype payload crc32)
     = 114
  /\ slice (build dst_mac_addr src_mac_addr ethertype payload crc32) 0 6
     = dst_mac_addr
  /\ slice (build dst_mac_addr src_mac_addr ethertype payload crc32) 6 12
     = src_mac_addr
  /\ slice (build dst_mac_addr src_mac_addr ethertype payload crc32) 12 14
     = [x08; x01]
  /\ skipn 14 (build dst_mac_addr src_mac_addr ethertype payload crc32)
     = repeat x50 100.
Proof.
  repeat split; vm_compute; reflexivity.
Qed.

(** C4: cutting the frame at offsets 0, 6, 12, 14 and 14 + len(payload)
    gives back dst, src, ethertype, payload and the trailer, for fields of
    the sizes of C1. *)
Theorem split_frame_build (dst src ety pl : bytes) (trailer : option bytes) :
  List.length dst = 6 -> List.length src = 6 -> List.length ety = 2 ->
  List.length pl <= 1500 ->
  (forall t, trailer = Some t -> List.length t = 4) ->
  split_frame (build dst src ety pl (crc32_of trailer)) (List.length pl)
  = (dst, src, ety, pl, crc32_of trailer)
  /\ trailer_of
       (skipn (14 + List.length pl)
          (build dst src ety pl (crc32_of trailer)))
     = trailer.
Proof.
  intros Hd Hs He _ Ht.
  pose proof (split_frame_app dst src ety pl (crc32_of trailer) Hd Hs He)
    as Hsplit.
  rewrite <- build_app in Hsplit. split.
  - exact Hsplit.
  - pose proof (f_equal snd Hsplit) as Htail.
    unfold split_frame in Htail. cbn [snd] in Htail.
    rewrite Htail. apply trailer_of_crc32_of, Ht.
Qed.

(** A broadcast frame with the trailer of line 77, cut back into its
    fields. *)
Lemma split_frame_build_witness :
  List.length ethertype = 2
  /\ split_frame
       (build broadcast src_mac_addr ethertype payload
          (crc32_of (Some [x01; x02; x03; x04])))
       (List.length payload)
     = (broadcast, src_mac_addr, ethertype, payload,
        crc32_of (Some [x01; x02; x03; x04]))
  /\ trailer_of
       (skipn (14 + List.length payload)
          (build broadcast src_mac_addr ethertype payload
             (crc32_of (Some [x01; x02; x03; x04]))))
     = Some [x01; x02; x03; x04].
Proof.
  split; [reflexivity |].
  apply (split_frame_build broadcast src_mac_addr ethertype payload
           (Some [x01; x02; x03; x04])).
  - reflexivity.
  - reflexivity.
  - reflexivity.
  - apply Nat.leb_le. reflexivity.
  - intros t H. injection H as <-. reflexivity.
Defined.



(** C9: the frame is built from byte strings of any lengths: the result is
    always returned, it is dst, src, ethertype, payload and trailer in a row,
    its length is the sum of theirs, and no call is made on the way. *)
Theorem build_total {W : Type} (h : host W) (w : W)
  (dst src ety pl crc : bytes) :
  run h (eval_frame dst src ety pl crc) w
  = Result [] (Returns (dst ++ src ++ ety ++ pl ++ crc)) w
  /\ build dst src ety pl crc = dst ++ src ++ ety ++ pl ++ crc
  /\ List.length (build dst src ety pl crc)
     = List.length dst + List.length src + List.length ety
       + List.length pl + List.length crc.
Proof.
  split; [| split].
  - rewrite run_eval_frame, build_app. reflexivity.
  - apply build_app.
  - apply build_length.
Qed.

(** With the broadcast address of line 70 as dst, the first 6 bytes of the
    frame are all 0xFF, whatever follows. *)
Lemma build_broadcast_prefix (src ety pl crc : bytes) :
  firstn 6 (build broadcast src ety pl crc) = repeat xff 6.
Proof.
  rewrite build_app. apply (firstn_exact broadcast). reflexivity.
Qed.

(** ** The transmitter *)

(** C7, as the code has it: when the host creates the raw socket and answers
    the bind to [name] with "No such device", opening fails with
    InterfaceNotFound after exactly these two calls, and the state of the
    host is the one the refused bind left. *)
Theorem open_nonexistent_interface {W : Type} (h : host W) (w w1 w2 : W)
  (name : string) (s : sock) :
  respond h (Esocket AF_PACKET SOCK_RAW) w = (Returns s, w1) ->
  respond h (Ebind s (name, 0%Z)) w1 = (Raises InterfaceNotFound, w2) ->
  run h (open_transmitter name) w
  = Result [Event (Esocket AF_PACKET SOCK_RAW) (Returns s);
            Event (Ebind s (name, 0%Z)) (Raises InterfaceNotFound)]
      (Raises InterfaceNotFound) w2.
Proof.
  intros Hsocket Hbind. unfold open_transmitter, call. cbn.
  rewrite Hsocket. cbn. rewrite Hbind. reflexivity.
Qed.

(** Root opening [nonexistent0] on a host with [eth0] and [lo]. *)
Lemma open_nonexistent_interface_witness :
  existsb (String.eqb "nonexistent0") (interfaces root_world) = false
  /\ run model_host (open_transmitter "nonexistent0") root_world
     = Result [Event (Esocket AF_PACKET SOCK_RAW) (Returns 0);
               Event (Ebind 0 ("nonexistent0"%string, 0%Z))
                 (Raises InterfaceNotFound)]
         (Raises InterfaceNotFound)
         (World true ["eth0"%string; "lo"%string] [(0, None)] []).
Proof.
  split; [reflexivity |].
  apply (open_nonexistent_interface model_host root_world
           (World true ["eth0"%string; "lo"%string] [(0, None)] [])
           (World true ["eth0"%string; "lo"%string] [(0, None)] [])
           "nonexistent0" 0).
  - reflexivity.
  - reflexivity.
Defined.

(** C7 as stated fails: without the privilege to create a raw socket,
    opening [nonexistent0], which is no interface of the host, fails with
    PermissionDenied at the first call; the name is never looked at. *)
Lemma open_nonexistent0_unprivileged :
  existsb (String.eqb "nonexistent0") (interfaces user_world) = false
  /\ run model_host (open_transmitter "nonexistent0") user_world
     = Result [Event (Esocket AF_PACKET SOCK_RAW) (Raises PermissionDenied)]
         (Raises PermissionDenied) user_world
  /\ out (run model_host (open_transmitter "nonexistent0") user_world)
     <> Raises InterfaceNotFound.
Proof.
  split; [reflexivity |]. split; [reflexivity |].
  intros H. discriminate H.
Qed.



(** C10, as the code has it: a run of the script is a prefix of the sequence
    socket(AF_PACKET, SOCK_RAW), bind to ("eth0", 0), send of the 114-byte
    frame: it stops at the first call that raises and is the whole sequence
    when none does.  No run calls [setsockopt] or [close], creates a second
    socket or sends twice. *)
Theorem script_call_sequence {W : Type} (h : host W) (w : W) :
  script_run_shape "eth0"
    (build dst_mac_addr src_mac_addr ethertype payload crc32)
    (run h script w)
  /\ List.length (build dst_mac_addr src_mac_addr ethertype payload crc32)
     = 114
  /\ existsb is_setsockopt (trace (run h script w)) = false
  /\ existsb is_close (trace (run h script w)) = false
  /\ List.length (filter is_socket (trace (run h script w))) = 1
  /\ List.length (filter is_bind (trace (run h script w))) <= 1
  /\ List.length (filter is_send (trace (run h script w))) <= 1.
Proof.
  pose proof (run_script_shape h w) as Hshape.
  split; [exact Hshape |]. split; [reflexivity |].
  by_shape Hshape; repeat split; lia.
Qed.

(** C10 as stated fails: run without privilege, the script makes one call,
    the refused [socket]; it binds nothing and sends nothing. *)
Lemma script_unprivileged_run :
  run model_host script user_world
  = Result [Event (Esocket AF_PACKET SOCK_RAW) (Raises PermissionDenied)]
      (Raises PermissionDenied) user_world
  /\ List.length (filter is_bind (trace (run model_host script user_world)))
     = 0
  /\ List.length (filter is_send (trace (run model_host script user_world)))
     = 0.
Proof.
  repeat split; vm_compute; reflexivity.
Qed.

(** ** The layout of the frame for fields of any length *)

(** Each field sits at the offset the lengths of the fields before it give:
    nothing is padded or cut, so a dst of 3 bytes moves src to offset 3. *)
Theorem build_fields_at_offsets (dst src ety pl crc : bytes) :
  slice (build dst src ety pl crc) 0 (List.length dst) = dst
  /\ slice (build dst src ety pl crc) (List.length dst)
       (List.length dst + List.length src) = src
  /\ slice (build dst src ety pl crc) (List.length dst + List.length src)
       (List.length dst + List.length src + List.length ety) = ety
  /\ slice (build dst src ety pl crc)
       (List.length dst + List.length src + List.length ety)
       (List.length dst + List.length src + List.length ety
        + List.length pl) = pl
  /\ skipn
       (List.length dst + List.length src + List.length ety + List.length pl)
       (build dst src ety pl crc) = crc.
Proof.
  rewrite build_app. repeat split.
  - apply (slice_app [] dst); [reflexivity | lia].
  - apply slice_app; [reflexivity | lia].
  - replace (dst ++ src ++ ety ++ pl ++ crc)
      with ((dst ++ src) ++ ety ++ pl ++ crc)
      by (repeat rewrite <- app_assoc; reflexivity).
    apply slice_app; [rewrite length_app; reflexivity | lia].
  - replace (dst ++ src ++ ety ++ pl ++ crc)
      with ((dst ++ src ++ ety) ++ pl ++ crc)
      by (repeat rewrite <- app_assoc; reflexivity).
    apply slice_app; [repeat rewrite length_app; lia | lia].
  - replace (dst ++ src ++ ety ++ pl ++ crc)
      with ((dst ++ src ++ ety ++ pl) ++ crc)
      by (repeat rewrite <- app_assoc; reflexivity).
    apply skipn_exact. repeat rewrite length_app. lia.
Qed.

(** The frame does not record where the payload ends: a trailer after the
    payload and the same bytes at the end of the payload give one frame. *)
Theorem build_trailer_is_payload_tail (dst src ety pl t : bytes) :
  build dst src ety (pl ++ t) [] = build dst src ety pl t.
Proof.
  repeat rewrite build_app. rewrite app_nil_r. reflexivity.
Qed.

(** Two frames whose dst, src, ethertype and payload have the same lengths
    are equal only when all five fields are. *)
Theorem build_injective (d1 s1 e1 p1 c1 d2 s2 e2 p2 c2 : bytes) :
  List.length d1 = List.length d2 -> List.length s1 = List.length s2 ->
  List.length e1 = List.length e2 -> List.length p1 = List.length p2 ->
  build d1 s1 e1 p1 c1 = build d2 s2 e2 p2 c2 ->
  d1 = d2 /\ s1 = s2 /\ e1 = e2 /\ p1 = p2 /\ c1 = c2.
Proof.
  intros Hd Hs He Hp Hf.
  destruct (build_fields_at_offsets d1 s1 e1 p1 c1)
    as (A1 & B1 & C1 & D1 & E1).
  destruct (build_fields_at_offsets d2 s2 e2 p2 c2)
    as (A2 & B2 & C2 & D2 & E2).
  rewrite Hf, Hd, ?Hs, ?He, ?Hp in A1, B1, C1, D1, E1.
  repeat split; congruence.
Qed.

(** Two ways to write the frame of the script. *)
Lemma build_injective_witness :
  dst_mac_addr = src_mac_addr /\ src_mac_addr = dst_mac_addr
  /\ ethertype = [x08; x01] /\ payload = repeat x50 100 /\ crc32 = [].
Proof.
  apply (build_injective dst_mac_addr src_mac_addr ethertype payload crc32
           src_mac_addr dst_mac_addr [x08; x01] (repeat x50 100) []);
    reflexivity.
Defined.


(** ** The runs of the script, call by call *)

Section ScriptRuns.

Context {W : Type} (h : host W).
Variables (name : string) (dst src ety pl crc : bytes).

(** When the host refuses the socket (Errno 1 without sudo, lines 5-7), the
    script ends with that exception after this one call, whatever the
    interface name and the frame are. *)
Theorem script_socket_refused (w w1 : W) (e : exn) :
  respond h (Esocket AF_PACKET SOCK_RAW) w = (Raises e, w1) ->
  run h (script_with name dst src ety pl crc) w
  = Result [Event (Esocket AF_PACKET SOCK_RAW) (Raises e)] (Raises e) w1.
Proof.
  intros Hsocket. unfold script_with, open_transmitter, eval_frame, call.
  cbn. rewrite Hsocket. reflexivity.
Qed.

(** When the bind is refused, the script ends with that exception and sends
    nothing. *)
Theorem script_bind_refused (w w1 w2 : W) (s : sock) (e : exn) :
  respond h (Esocket AF_PACKET SOCK_RAW) w = (Returns s, w1) ->
  respond h (Ebind s (name, 0%Z)) w1 = (Raises e, w2) ->
  run h (script_with name dst src ety pl crc) w
  = Result [Event (Esocket AF_PACKET SOCK_RAW) (Returns s);
            Event (Ebind s (name, 0%Z)) (Raises e)]
      (Raises e) w2.
Proof.
  intros Hsocket Hbind.
  unfold script_with, open_transmitter, eval_frame, call.
  cbn. rewrite Hsocket. cbn. rewrite Hbind. reflexivity.
Qed.

(** When the send is refused, the script ends with that exception: it does
    not send again and does not close the socket. *)
Theorem script_send_refused (w w1 w2 w3 : W) (s : sock) (e : exn) :
  respond h (Esocket AF_PACKET SOCK_RAW) w = (Returns s, w1) ->
  respond h (Ebind s (name, 0%Z)) w1 = (Returns tt, w2) ->
  respond h (Esend s (build dst src ety pl crc)) w2 = (Raises e, w3) ->
  run h (script_with name dst src ety pl crc) w
  = Result [Event (Esocket AF_PACKET SOCK_RAW) (Returns s);
            Event (Ebind s (name, 0%Z)) (Returns tt);
            Event (Esend s (build dst src ety pl crc)) (Raises e)]
      (Raises e) w3.
Proof.
  intros Hsocket Hbind Hsend.
  unfold script_with, open_transmitter, eval_frame, call.
  cbn. rewrite Hsocket. cbn. rewrite Hbind. cbn. rewrite Hsend. reflexivity.
Qed.

(** The number [send] returns is dropped (line 80 is an expression
    statement): once the three calls return, the script ends normally
    whatever count the host reported, also one below the length of the
    frame. *)
Theorem script_send_count_ignored (w w1 w2 w3 : W) (s : sock) (n : Z) :
  respond h (Esocket AF_PACKET SOCK_RAW) w = (Returns s, w1) ->
  respond h (Ebind s (name, 0%Z)) w1 = (Returns tt, w2) ->
  respond h (Esend s (build dst src ety pl crc)) w2 = (Returns n, w3) ->
  run h (script_with name dst src ety pl crc) w
  = Result [Event (Esocket AF_PACKET SOCK_RAW) (Returns s);
            Event (Ebind s (name, 0%Z)) (Returns tt);
            Event (Esend s (build dst src ety pl crc)) (Returns n)]
      (Returns tt) w3.
Proof.
  intros Hsocket Hbind Hsend.
  unfold script_with, open_transmitter, eval_frame, call.
  cbn. rewrite Hsocket. cbn. rewrite Hbind. cbn. rewrite Hsend. reflexivity.
Qed.

End ScriptRuns.

(** The script run by an ordinary user. *)
Lemma script_socket_refused_witness :
  run model_host script user_world
  = Result [Event (Esocket AF_PACKET SOCK_RAW) (Raises PermissionDenied)]
      (Raises PermissionDenied) user_world.
Proof.
  apply (script_socket_refused model_host interface_name dst_mac_addr
           src_mac_addr ethertype payload crc32 user_world user_world
           PermissionDenied).
  reflexivity.
Defined.

(** The script edited to use [eth7], which the host does not have. *)
Lemma script_bind_refused_witness :
  run model_host
    (script_with "eth7" dst_mac_addr src_mac_addr ethertype payload crc32)
    root_world
  = Result [Event (Esocket AF_PACKET SOCK_RAW) (Returns 0);
            Event (Ebind 0 ("eth7"%string, 0%Z)) (Raises InterfaceNotFound)]
      (Raises InterfaceNotFound)
      (World true ["eth0"%string; "lo"%string] [(0, None)] []).
Proof.
  apply (script_bind_refused model_host "eth7" dst_mac_addr src_mac_addr
           ethertype payload crc32 root_world
           (World true ["eth0"%string; "lo"%string] [(0, None)] [])
           (World true ["eth0"%string; "lo"%string] [(0, None)] [])
           0 InterfaceNotFound);
    reflexivity.
Defined.

(** The script edited to a payload of 2000 bytes, on an interface with an
    MTU of 1500. *)
Lemma script_send_refused_witness :
  run (mtu_host 1500)
    (script_with "eth0" dst_mac_addr src_mac_addr ethertype
       (str_mul [x50] 2000) crc32)
    root_world
  = Result [Event (Esocket AF_PACKET SOCK_RAW) (Returns 0);
            Event (Ebind 0 ("eth0"%string, 0%Z)) (Returns tt);
            Event
              (Esend 0
                 (build dst_mac_addr src_mac_addr ethertype
                    (str_mul [x50] 2000) crc32))
              (Raises (socket_error EMSGSIZE))]
      (Raises (socket_error EMSGSIZE))
      (World true ["eth0"%string; "lo"%string] [(0, Some "eth0"%string)] []).
Proof.
  apply (script_send_refused (mtu_host 1500) "eth0" dst_mac_addr
           src_mac_addr ethertype (str_mul [x50] 2000) crc32 root_world
           (World true ["eth0"%string; "lo"%string] [(0, None)] [])
           (World true ["eth0"%string; "lo"%string]
              [(0, Some "eth0"%string)] [])
           (World true ["eth0"%string; "lo"%string]
              [(0, Some "eth0"%string)] [])
           0 (socket_error EMSGSIZE));
    reflexivity.
Defined.

(** The script run by root on a host that has [eth0]. *)
Lemma script_send_count_ignored_witness :
  run model_host script root_world
  = Result [Event (Esocket AF_PACKET SOCK_RAW) (Returns 0);
            Event (Ebind 0 ("eth0"%string, 0%Z)) (Returns tt);
            Event
              (Esend 0
                 (build dst_mac_addr src_mac_addr ethertype payload crc32))
              (Returns 114%Z)]
      (Returns tt)
      (World true ["eth0"%string; "lo"%string] [(0, Some "eth0"%string)]
         [("eth0"%string,
           build dst_mac_addr src_mac_addr ethertype payload crc32)]).
Proof.
  apply (script_send_count_ignored model_host interface_name dst_mac_addr
           src_mac_addr ethertype payload crc32 root_world
           (World true ["eth0"%string; "lo"%string] [(0, None)] [])
           (World true ["eth0"%string; "lo"%string]
              [(0, Some "eth0"%string)] [])
           (World true ["eth0"%string; "lo"%string]
              [(0, Some "eth0"%string)]
              [("eth0"%string,
                build dst_mac_addr src_mac_addr ethertype payload crc32)])
           0 114%Z);
    reflexivity.
Defined.
